(** * find_missing.py: the missing-translation scanner

    A shallow embedding of [rust-srec/frontend/find_missing.py] and the
    properties its specification states about it.

    The script reads a gettext catalog into a list of lines, walks the list
    with [enumerate], and for every line whose stripped text is the empty
    [msgstr] marker (and whose predecessor is not the empty [msgid]) prints a
    location line followed by the [msgid]-prefixed lines above it.  The whole
    body sits inside [try: ... except Exception as e: print(e)].

    Modelling choices:
    - a Python [str] is a list of Unicode code points ([N]);
    - a Python [int] is a [Z];
    - the script's effects ([print], the list subscript [lines[k]], a raised
      exception) are kept in a small trace-and-error monad [M];
    - standard output has an encoding: [print] raises [UnicodeEncodeError]
      on a string the encoding cannot encode, and writes nothing of it; the
      exception is caught by the script's [except] like any other.  Every
      encoding accepts the ASCII characters;
    - the descriptions of the exceptions are ASCII text (errno messages with
      the script's ASCII path, codec messages with escaped characters);
    - the file system maps a path to what opening it for reading and calling
      [readlines] yields; opening for writing would empty the file;
    - the [while] loop is defined by well-founded recursion on its index. *)

From Stdlib Require Import Ascii String.
From Stdlib Require Import List Sorted ZArith NArith Lia Bool.
From Stdlib Require Decimal DecimalString DecimalZ.
From Equations Require Import Equations.
Import ListNotations.

Open Scope Z_scope.

(** ** Python strings *)

Module PyStr.

(** A character is a Unicode code point, a string a sequence of them. *)
Definition pychar := N.
Definition pystr := list pychar.

(** [str.isspace] on one character, as CPython's [_PyUnicode_IsWhitespace]
    decides it; this is the set [str.strip()] removes. *)
Definition isspace (c : pychar) : bool :=
  ((9 <=? c) && (c <=? 13) ||
   (28 <=? c) && (c <=? 32) ||
   (c =? 133) || (c =? 160) || (c =? 5760) ||
   (8192 <=? c) && (c <=? 8202) ||
   (c =? 8232) || (c =? 8233) || (c =? 8239) || (c =? 8287) ||
   (c =? 12288))%N.

Fixpoint lstrip (s : pystr) : pystr :=
  match s with
  | [] => []
  | c :: r => if isspace c then lstrip r else s
  end.

Definition rstrip (s : pystr) : pystr := rev (lstrip (rev s)).

(** [s.strip()] *)
Definition strip (s : pystr) : pystr := rstrip (lstrip s).

(** [s == t] on strings *)
Fixpoint eqb (s t : pystr) : bool :=
  match s, t with
  | [], [] => true
  | c :: s', d :: t' => (c =? d)%N && eqb s' t'
  | _, _ => false
  end.

(** [s.startswith(p)] *)
Fixpoint startswith (s p : pystr) {struct p} : bool :=
  match p with
  | [] => true
  | d :: p' =>
      match s with
      | [] => false
      | c :: s' => (c =? d)%N && startswith s' p'
      end
  end.

(** A string literal of the source, written with ASCII characters. *)
Definition lit (s : string) : pystr :=
  map N_of_ascii (list_ascii_of_string s).

(** The double-quote character and the colon. *)
Definition dquote : pychar := 34%N.
Definition colon : pychar := 58%N.

(** [str(n)] for an integer: its decimal numeral. *)
Definition str_of_int (n : Z) : pystr :=
  lit (DecimalString.NilZero.string_of_int (Z.to_int n)).

(** A string of ASCII characters only. *)
Definition is_ascii (s : pystr) : bool := forallb (fun c => (c <? 128)%N) s.

End PyStr.
Import PyStr.

Fixpoint take_while {A} (p : A -> bool) (l : list A) : list A :=
  match l with
  | [] => []
  | x :: r => if p x then x :: take_while p r else []
  end.

(** ** ASCII text *)

(** The text of an error message: a string known to be ASCII. *)
Record ascii_text : Type := AsciiText {
  text : pystr;
  text_is_ascii : is_ascii text = true
}.

(** An ASCII literal. *)
Definition ascii_lit (s : string) (H : is_ascii (lit s) = true) : ascii_text :=
  AsciiText (lit s) H.

Definition ascii_app (a b : ascii_text) : ascii_text.
Proof.
  refine (AsciiText (text a ++ text b) _).
  unfold is_ascii. rewrite forallb_app.
  apply andb_true_intro; split; apply text_is_ascii.
Defined.

(** The decimal numeral of an integer, as text. *)
Definition ascii_of_int (n : Z) : ascii_text.
Proof.
  refine (AsciiText (str_of_int n) _).
  assert (U : forall d,
             is_ascii (lit (DecimalString.NilEmpty.string_of_uint d)) = true)
    by (intros d; induction d; simpl; auto).
  assert (V : forall d,
             is_ascii (lit (DecimalString.NilZero.string_of_uint d)) = true)
    by (intros d; destruct d; try apply U; reflexivity).
  unfold str_of_int. destruct (Z.to_int n) as [d|d]; simpl; apply V.
Defined.

(** One lowercase hexadecimal digit, and a number on [w] such digits. *)
Definition hex_digit (n : N) : pychar :=
  if (n <? 10)%N then (48 + n)%N else (87 + n)%N.

Fixpoint hex_fixed (w : nat) (n : N) : pystr :=
  match w with
  | O => []
  | S w' => hex_fixed w' (n / 16)%N ++ [hex_digit (n mod 16)%N]
  end.

Definition ascii_hex (w : nat) (n : N) : ascii_text.
Proof.
  refine (AsciiText (hex_fixed w n) _).
  revert n; induction w as [|w IH]; intros n; [reflexivity|].
  simpl. unfold is_ascii in *. rewrite forallb_app, IH. simpl.
  rewrite andb_true_r. unfold hex_digit.
  assert (H : (n mod 16 < 16)%N) by (apply N.mod_lt; discriminate).
  destruct (n mod 16 <? 10)%N; apply N.ltb_lt; lia.
Defined.

(** ** Exceptions, events and the script's monad *)

(** The exceptions the script can meet: the ones [open] and [readlines]
    raise, the [UnicodeEncodeError] of [print], and the [IndexError] of a
    list subscript.  All of them derive from [Exception]. *)
Inductive exception : Type :=
| OSError (msg : ascii_text)
| UnicodeDecodeError (msg : ascii_text)
| UnicodeEncodeError (msg : ascii_text)
| IndexError.

(** [str(e)], what [print(e)] writes. *)
Definition str_of_exception (e : exception) : pystr :=
  match e with
  | OSError msg => text msg
  | UnicodeDecodeError msg => text msg
  | UnicodeEncodeError msg => text msg
  | IndexError => lit "list index out of range"
  end.

(** What a run does, in order: a line written by [print], or the
    evaluation of the subscript [lines[k]]. *)
Inductive event : Type :=
| EvPrint (s : pystr)
| EvIndex (k : Z).

(** A computation yields the events it performed and then either a value
    or the exception that stopped it. *)
Definition M (A : Type) : Type := (list event * (exception + A))%type.

Definition ret {A} (a : A) : M A := ([], inr a).

Definition bind {A B} (m : M A) (f : A -> M B) : M B :=
  match m with
  | (t, inl e) => (t, inl e)
  | (t, inr a) =>
      match f a with
      | (t', r) => (t ++ t', r)
      end
  end.

Notation "x <- m ;; k" := (bind m (fun x => k))
  (at level 61, m at next level, right associativity).
Notation "m ;; k" := (bind m (fun _ => k))
  (at level 61, right associativity).

(** [try: body  except Exception as e: handler(e)] *)
Definition try_except (body : M unit) (handler : exception -> M unit) : M unit :=
  match body with
  | (t, inl e) =>
      match handler e with
      | (t', r) => (t ++ t', r)
      end
  | (t, inr tt) => (t, inr tt)
  end.

(** The lines written to standard output, one per successful [print]. *)
Fixpoint stdout (t : list event) : list pystr :=
  match t with
  | [] => []
  | EvPrint s :: r => s :: stdout r
  | EvIndex _ :: r => stdout r
  end.

(** The indices at which the list was subscripted. *)
Fixpoint subscripts (t : list event) : list Z :=
  match t with
  | [] => []
  | EvPrint _ :: r => subscripts r
  | EvIndex k :: r => k :: subscripts r
  end.

(** ** Python list subscript *)

(** [l[k]] on a list: a negative index counts from the end, an index
    outside the list has no element. *)
Definition py_index {A} (l : list A) (k : Z) : option A :=
  let n := Z.of_nat (length l) in
  let k' := if k <? 0 then k + n else k in
  if (k' <? 0) || (n <=? k') then None else nth_error l (Z.to_nat k').

(** The subscript expression [lines[k]]: recorded, and raising
    [IndexError] outside the list. *)
Definition getitem (lines : list pystr) (k : Z) : M pystr :=
  ([EvIndex k],
   match py_index lines k with
   | Some x => inr x
   | None => inl IndexError
   end).

(** ** Standard output and its encoding *)

(** The encoding of standard output, with the strict error handler: which
    characters it can encode, and the description of the
    [UnicodeEncodeError] it raises on a string.  ASCII characters are
    encoded by every encoding Python writes text with. *)
Record stdout_encoding : Type := {
  can_encode : pychar -> bool;
  error_text : pystr -> ascii_text;
  ascii_ok : forall c, (c <? 128)%N = true -> can_encode c = true
}.

(** A string standard output can write. *)
Definition encodable (enc : stdout_encoding) (s : pystr) : bool :=
  forallb (can_encode enc) s.

(** The escape of a character in a codec message: [\xNN], [\uNNNN] or
    [\UNNNNNNNN]. *)
Definition escape_char (c : pychar) : ascii_text :=
  if (c <? 256)%N then ascii_app (ascii_lit "\x" eq_refl) (ascii_hex 2 c)
  else if (c <? 65536)%N then ascii_app (ascii_lit "\u" eq_refl) (ascii_hex 4 c)
  else ascii_app (ascii_lit "\U" eq_refl) (ascii_hex 8 c).

(** [str(e)] of the [UnicodeEncodeError] a codec raises on [s]: it names
    the first run of characters the codec cannot encode, by its escape
    when the run is one character and by its positions otherwise. *)
Definition codec_message (name reason : ascii_text) (ok : pychar -> bool)
    (s : pystr) : ascii_text :=
  let start := length (take_while ok s) in
  let bad := take_while (fun c => negb (ok c)) (skipn start s) in
  let head :=
    ascii_app (ascii_lit "'" eq_refl)
      (ascii_app name (ascii_lit "' codec can't encode character" eq_refl)) in
  let tail := ascii_app (ascii_lit ": " eq_refl) reason in
  match bad with
  | [c] =>
      ascii_app head
        (ascii_app (ascii_lit " '" eq_refl)
           (ascii_app (escape_char c)
              (ascii_app (ascii_lit "' in position " eq_refl)
                 (ascii_app (ascii_of_int (Z.of_nat start)) tail))))
  | _ =>
      ascii_app head
        (ascii_app (ascii_lit "s in position " eq_refl)
           (ascii_app (ascii_of_int (Z.of_nat start))
              (ascii_app (ascii_lit "-" eq_refl)
                 (ascii_app
                    (ascii_of_int (Z.of_nat (start + length bad - 1)))
                    tail))))
  end.

(** Standard output encoded as ASCII. *)
Definition ascii_stdout : stdout_encoding :=
  {| can_encode := fun c => (c <? 128)%N;
     error_text :=
       codec_message (ascii_lit "ascii" eq_refl)
         (ascii_lit "ordinal not in range(128)" eq_refl)
         (fun c => (c <? 128)%N);
     ascii_ok := fun c H => H |}.

(** Standard output encoded as UTF-8: everything but the surrogates. *)
Definition utf8_can_encode (c : pychar) : bool :=
  negb ((55296 <=? c) && (c <=? 57343))%N.

Definition utf8_stdout : stdout_encoding.
Proof.
  refine {| can_encode := utf8_can_encode;
            error_text :=
              codec_message (ascii_lit "utf-8" eq_refl)
                (ascii_lit "surrogates not allowed" eq_refl)
                utf8_can_encode |}.
  intros c H. apply N.ltb_lt in H. unfold utf8_can_encode.
  destruct (55296 <=? c)%N eqn:E; [|reflexivity].
  apply N.leb_le in E. lia.
Defined.

(** ** The file system *)

(** The file system as a script observes it: for a path, what opening it
    for reading as UTF-8 text and calling [readlines] yields, the lines or
    the exception raised on the way. *)
Definition filesystem : Type := pystr -> exception + list pystr.

(** The modes of [open] for reading and for writing. *)
Inductive open_mode : Type := ModeR | ModeW.

Definition fs_update (fs : filesystem) (p : pystr)
    (v : exception + list pystr) : filesystem :=
  fun q => if eqb q p then v else fs q.

(** [with open(p, mode, encoding='utf-8') as f: lines = f.readlines()] as
    a step on the file system: mode ['r'] leaves every file as it is and
    yields the lines or the exception; mode ['w'] creates or empties the
    file, and [readlines] then raises since the file is not readable. *)
Definition open_readlines (fs : filesystem) (p : pystr) (mode : open_mode)
    : filesystem * (exception + list pystr) :=
  match mode with
  | ModeR => (fs, fs p)
  | ModeW =>
      (fs_update fs p (inr []),
       inl (OSError (ascii_lit "not readable" eq_refl)))
  end.

(** The path the script opens. *)
Definition catalog_path : pystr :=
  lit "d:/Develop/hua0512/stream-rec/rust-srec/rust-srec/frontend/src/locales/zh-CN/messages.po".

(** ** The script *)

(** The two literals the script compares against: [msgstr] and [msgid]
    followed by a space and an empty pair of double quotes. *)
Definition msgstr_empty : pystr := lit "msgstr " ++ [dquote; dquote].
Definition msgid_empty : pystr := lit "msgid " ++ [dquote; dquote].

(** The two formatted strings the script prints: the one with
    [Line {i+1}: {line.strip()}] and the one with
    [  Context: {lines[j].strip()}]. *)
Definition location_line (i : Z) (line : pystr) : pystr :=
  lit "Line " ++ str_of_int (i + 1) ++ lit ": " ++ strip line.

Definition context_line (l : pystr) : pystr :=
  lit "  Context: " ++ strip l.

(** [for i, line in enumerate(l, start): body(i, line)] *)
Fixpoint for_enumerate (body : Z -> pystr -> M unit) (start : Z)
    (l : list pystr) : M unit :=
  match l with
  | [] => ret tt
  | line :: rest => body start line ;; for_enumerate body (start + 1) rest
  end.

Section Script.

(** The encoding of the standard output the script prints to. *)
Variable enc : stdout_encoding.

(** [print(s)]: the line is written when the encoding can encode it;
    otherwise nothing is written and [UnicodeEncodeError] is raised. *)
Definition print (s : pystr) : M unit :=
  if encodable enc s then ([EvPrint s], inr tt)
  else ([], inl (UnicodeEncodeError (error_text enc s))).

(** The [while j >= 0 and lines[j].startswith("msgid")] loop, entered with
    the index [j]; [and] evaluates its right operand only when the left one
    holds. *)
Equations? walk (lines : list pystr) (j : Z) : M unit
  by wf (Z.to_nat (j + 1)) lt :=
  walk lines j with Z_ge_dec j 0 := {
    | left _ =>
        x <- getitem lines j ;;
        if startswith x (lit "msgid") then
          y <- getitem lines j ;;
          print (context_line y) ;;
          walk lines (j - 1)
        else ret tt
    | right _ => ret tt }.
Proof. lia. Qed.

(** The condition [i > 0 and lines[i-1].strip() == 'msgid ...'] of the
    header test. *)
Definition header_test (lines : list pystr) (i : Z) : M bool :=
  if i >? 0 then
    p <- getitem lines (i - 1) ;;
    ret (eqb (strip p) msgid_empty)
  else ret false.

(** The body of the [for] loop at index [i] and line [line]. *)
Definition scan_body (lines : list pystr) (i : Z) (line : pystr) : M unit :=
  if eqb (strip line) msgstr_empty then
    let is_header := false in
    c <- header_test lines i ;;
    let is_header := if c then true else is_header in
    if negb is_header then
      print (location_line i line) ;;
      let j := i - 1 in
      walk lines j
    else ret tt
  else ret tt.

(** The scan over the loaded lines. *)
Definition scan (lines : list pystr) : M unit :=
  for_enumerate (scan_body lines) 0 lines.

(** [with open(p, 'r', encoding='utf-8') as f: lines = f.readlines()]:
    the file system after it, and the lines or the exception. *)
Definition read_lines (fs : filesystem) (p : pystr)
    : filesystem * M (list pystr) :=
  match open_readlines fs p ModeR with
  | (fs', r) => (fs', ([], r))
  end.

(** A run of the whole script from a file system: the file system it
    leaves, and what the run did. *)
Definition run (fs : filesystem) : filesystem * M unit :=
  match read_lines fs catalog_path with
  | (fs', reading) =>
      (fs',
       try_except
         (lines <- reading ;;
          scan lines)
         (fun e => print (str_of_exception e)))
  end.

(** What the script does on a file system. *)
Definition script (fs : filesystem) : M unit := snd (run fs).

(** ** Sample catalogs *)

Definition nl : pychar := 10%N.
Definition line_of (s : pystr) : pystr := s ++ [nl].

Definition msgid_of (s : string) : pystr :=
  line_of (lit "msgid " ++ [dquote] ++ lit s ++ [dquote]).
Definition msgstr_of (s : string) : pystr :=
  line_of (lit "msgstr " ++ [dquote] ++ lit s ++ [dquote]).

(** The header entry alone. *)
Definition header_only : list pystr :=
  [msgid_of EmptyString; msgstr_of EmptyString].

(** The header, a blank line, and one untranslated entry. *)
Definition sample_hello : list pystr :=
  header_only ++ [line_of []; msgid_of "Hello"; msgstr_of EmptyString].

(** The header, then an entry elsewhere whose [msgid] is empty too. *)
Definition sample_empty_msgid : list pystr :=
  header_only ++ [line_of []; msgid_of EmptyString; msgstr_of EmptyString].

(** An entry whose [msgid] spans two [msgid]-prefixed lines. *)
Definition sample_two_msgid : list pystr :=
  [line_of []; msgid_of "first"; msgid_of "second"; msgstr_of EmptyString].

(** A marker on the first line and a second untranslated entry below. *)
Definition sample_two_reports : list pystr :=
  [msgstr_of EmptyString; msgid_of "Hello"; msgid_of "x";
   msgstr_of EmptyString].

(** A translated entry. *)
Definition sample_bonjour : list pystr :=
  [msgid_of "Hello"; msgstr_of "Bonjour"].

(** An untranslated entry whose [msgid] holds two Chinese characters
    (U+4F60, U+597D), a blank line, and a second untranslated entry. *)
Definition sample_chinese : list pystr :=
  [line_of (lit "msgid " ++ [dquote; 20320%N; 22909%N; dquote]);
   msgstr_of EmptyString;
   line_of [];
   msgid_of "Hello";
   msgstr_of EmptyString].

(** The printed strings of the samples, spelled out. *)
Definition line_msgstr (n : string) : pystr :=
  lit "Line " ++ lit n ++ lit ": msgstr " ++ [dquote; dquote].
Definition context_msgid (s : string) : pystr :=
  lit "  Context: msgid " ++ [dquote] ++ lit s ++ [dquote].

(** A file system where the catalog holds the given lines. *)
Definition fs_with (lines : list pystr) : filesystem :=
  fun _ => inr lines.

(** A file system where the catalog is missing. *)
Definition fs_missing : filesystem :=
  fun _ => inl (OSError (ascii_lit "[Errno 2] No such file or directory" eq_refl)).

(** ** The report, as the specification words it *)

(** An Entry Marker: a line whose trimmed content is the empty [msgstr]. *)
Definition entry_marker (line : pystr) : bool :=
  eqb (strip line) msgstr_empty.

(** The Header Flag of position [i]: the index is greater than zero and the
    trimmed content of the line just before equals the empty [msgid]. *)
Definition header_flag (lines : list pystr) (i : nat) : bool :=
  (0 <? i)%nat &&
  match nth_error lines (i - 1) with
  | Some p => eqb (strip p) msgid_empty
  | None => false
  end.

Definition msgid_prefixed (l : pystr) : bool := startswith l (lit "msgid").

(** The Context Lines of position [i]: the consecutive [msgid]-prefixed
    lines met walking backward from [i - 1], nearest first. *)
Definition context_of (lines : list pystr) (i : nat) : list pystr :=
  take_while msgid_prefixed (rev (firstn i lines)).

(** Whether position [i] holding [line] is reported. *)
Definition reported (lines : list pystr) (i : nat) (line : pystr) : bool :=
  entry_marker line && negb (header_flag lines i).

(** A report block: the location line followed by the context lines. *)
Definition block (lines : list pystr) (i : nat) (line : pystr) : list pystr :=
  location_line (Z.of_nat i) line :: map context_line (context_of lines i).

(** What position [i] has to print: its block when it is reported, nothing
    otherwise. *)
Definition report_block (lines : list pystr) (i : nat) (line : pystr)
    : list pystr :=
  if reported lines i line then block lines i line else [].

(** [enumerate(l, start)] as a list of pairs. *)
Definition enumerate {A} (start : nat) (l : list A) : list (nat * A) :=
  combine (seq start (length l)) l.

(** The whole report: the blocks of all positions, in file order. *)
Definition report (lines : list pystr) : list pystr :=
  concat (map (fun p => report_block lines (fst p) (snd p)) (enumerate 0 lines)).

(** The first of the lines to print that standard output cannot encode. *)
Definition first_rejected (out : list pystr) : option pystr :=
  find (fun s => negb (encodable enc s)) out.

(** How a computation that has [out] to print and then [a] to return ends:
    with [a], or with the exception of the first rejected line. *)
Definition result_of {A} (a : A) (out : list pystr) : exception + A :=
  match first_rejected out with
  | None => inr a
  | Some s => inl (UnicodeEncodeError (error_text enc s))
  end.

(** A computation that has the lines [out] to print, in order, and then
    the value [a] to return: it prints them up to the first one standard
    output rejects, ends as [result_of] says, and subscripts the list only
    at indices [k] with [0 <= k < bound]. *)
Definition performs {A} (m : M A) (a : A) (out : list pystr) (bound : nat)
    : Prop :=
  exists t,
    m = (t, result_of a out) /\
    stdout t = take_while (encodable enc) out /\
    Forall (fun k => 0 <= k < Z.of_nat bound) (subscripts t).

(** ** Notions used to describe the scan further *)

(** A string made of whitespace only, in the sense of [strip]. *)
Definition all_space (s : pystr) : bool := forallb isspace s.

(** A printed line in the location format. *)
Definition is_location (s : pystr) : bool := startswith s (lit "Line ").

(** Two lines that differ at most in their trailing whitespace (line
    ending included). *)
Definition same_up_to_trailing_space (l l' : pystr) : Prop :=
  rstrip l = rstrip l'.

(** The line with its ending [\n] replaced by [\r\n]. *)
Definition crlf (l : pystr) : pystr := removelast l ++ [13%N; nl].

(** An untranslated entry whose [msgid] line is indented by one space. *)
Definition sample_indented : list pystr :=
  [32%N :: msgid_of "Hello"; msgstr_of EmptyString].

(** ** Lemmas on strings and lists *)

Lemma eqb_eq (s t : pystr) : eqb s t = true <-> s = t.
Proof.
  revert t; induction s as [|c s IH]; intros [|d t]; simpl;
    try (split; [discriminate | discriminate]); try tauto.
  rewrite andb_true_iff, N.eqb_eq, IH.
  split; [intros [-> ->]; reflexivity | intros [= -> ->]; auto].
Qed.

Lemma eqb_refl (s : pystr) : eqb s s = true.
Proof. apply eqb_eq; reflexivity. Qed.

Lemma eqb_neq (s t : pystr) : eqb s t = false <-> s <> t.
Proof.
  rewrite <- eqb_eq. destruct (eqb s t); split; congruence.
Qed.

Lemma startswith_app (p s : pystr) : startswith (p ++ s) p = true.
Proof.
  induction p as [|d p IH]; simpl; [reflexivity|].
  rewrite N.eqb_refl, IH; reflexivity.
Qed.

Lemma startswith_inv (s p : pystr) :
  startswith s p = true -> exists r, s = p ++ r.
Proof.
  revert s; induction p as [|d p IH]; intros s H; simpl in *.
  - exists s; reflexivity.
  - destruct s as [|c s]; [discriminate|].
    apply andb_true_iff in H as [Hc Hs]. apply N.eqb_eq in Hc; subst d.
    destruct (IH _ Hs) as [r ->]. exists r; reflexivity.
Qed.

Lemma firstn_snoc {A} (l : list A) (n : nat) (x : A) :
  nth_error l n = Some x -> firstn (S n) l = firstn n l ++ [x].
Proof.
  revert n; induction l as [|a l IH]; intros [|n] H; simpl in *;
    try discriminate.
  - injection H as ->; reflexivity.
  - f_equal. apply IH; assumption.
Qed.

Lemma py_index_nat {A} (l : list A) (n : nat) :
  (n < length l)%nat -> py_index l (Z.of_nat n) = nth_error l n.
Proof.
  intros H. unfold py_index.
  destruct (Z.of_nat n <? 0) eqn:E; [apply Z.ltb_lt in E; lia|].
  destruct (Z.of_nat n <? 0); simpl.
  - discriminate.
  - destruct (Z.of_nat (length l) <=? Z.of_nat n) eqn:E'.
    + apply Z.leb_le in E'; lia.
    + rewrite Nat2Z.id; reflexivity.
Qed.

Lemma stdout_app (t u : list event) : stdout (t ++ u) = stdout t ++ stdout u.
Proof.
  induction t as [|[s|k] t IH]; simpl; rewrite ?IH; reflexivity.
Qed.

Lemma subscripts_app (t u : list event) :
  subscripts (t ++ u) = subscripts t ++ subscripts u.
Proof.
  induction t as [|[s|k] t IH]; simpl; rewrite ?IH; reflexivity.
Qed.

Lemma is_ascii_app (s t : pystr) :
  is_ascii (s ++ t) = is_ascii s && is_ascii t.
Proof. apply forallb_app. Qed.

Lemma ascii_encodable (s : pystr) : is_ascii s = true -> encodable enc s = true.
Proof.
  unfold is_ascii, encodable. induction s as [|c s IH]; simpl; [reflexivity|].
  intros H. apply andb_true_iff in H as [Hc Hs].
  rewrite (ascii_ok enc c Hc), (IH Hs). reflexivity.
Qed.

Lemma str_of_exception_encodable (e : exception) :
  encodable enc (str_of_exception e) = true.
Proof.
  apply ascii_encodable. destruct e; simpl; try apply text_is_ascii.
  reflexivity.
Qed.

(** The location line of an Entry Marker is ASCII, so always printed. *)
Lemma location_encodable (i : Z) (line : pystr) :
  entry_marker line = true -> encodable enc (location_line i line) = true.
Proof.
  intros Hm. apply eqb_eq in Hm. apply ascii_encodable.
  assert (Hn : is_ascii (str_of_int (i + 1)) = true)
    by exact (text_is_ascii (ascii_of_int (i + 1))).
  unfold location_line. rewrite Hm, !is_ascii_app, Hn. reflexivity.
Qed.

Lemma take_while_app {A} (p : A -> bool) (l1 l2 : list A) :
  take_while p (l1 ++ l2) =
  match find (fun x => negb (p x)) l1 with
  | None => l1 ++ take_while p l2
  | Some _ => take_while p l1
  end.
Proof.
  induction l1 as [|x l1 IH]; simpl; [reflexivity|].
  destruct (p x); simpl; [|reflexivity].
  rewrite IH. destruct (find (fun x => negb (p x)) l1); reflexivity.
Qed.

Lemma find_app {A} (f : A -> bool) (l1 l2 : list A) :
  find f (l1 ++ l2) =
  match find f l1 with
  | None => find f l2
  | Some x => Some x
  end.
Proof.
  induction l1 as [|x l1 IH]; simpl; [reflexivity|].
  destruct (f x); [reflexivity | exact IH].
Qed.

Lemma find_none_forallb {A} (p : A -> bool) (l : list A) :
  find (fun x => negb (p x)) l = None <-> forallb p l = true.
Proof.
  induction l as [|x l IH]; simpl; [tauto|].
  destruct (p x); simpl; [exact IH | split; discriminate].
Qed.

Lemma take_while_all {A} (p : A -> bool) (l : list A) :
  forallb p l = true -> take_while p l = l.
Proof.
  induction l as [|x l IH]; simpl; [reflexivity|].
  destruct (p x); simpl; [|discriminate]. intros H. rewrite (IH H). reflexivity.
Qed.

(** What [take_while] keeps is a prefix. *)
Lemma take_while_prefix {A} (p : A -> bool) (l : list A) :
  exists rest, l = take_while p l ++ rest.
Proof.
  induction l as [|x l [rest IH]]; simpl.
  - exists []; reflexivity.
  - destruct (p x).
    + exists rest. simpl. f_equal. exact IH.
    + exists (x :: l); reflexivity.
Qed.

Lemma in_take_while {A} (p : A -> bool) (x : A) (l : list A) :
  In x (take_while p l) -> In x l /\ p x = true.
Proof.
  induction l as [|a l IH]; simpl; [intros []|].
  destruct (p a) eqn:Pa; [|intros []].
  intros [<-|H]; [auto | destruct (IH H); auto].
Qed.

Lemma length_take_while {A} (p : A -> bool) (l : list A) :
  (length (take_while p l) <= length l)%nat.
Proof.
  induction l as [|x l IH]; simpl; [lia|]. destruct (p x); simpl; lia.
Qed.

Lemma first_rejected_app (o1 o2 : list pystr) :
  first_rejected (o1 ++ o2) =
  match first_rejected o1 with
  | None => first_rejected o2
  | Some s => Some s
  end.
Proof. apply find_app. Qed.

Lemma first_rejected_none (out : list pystr) :
  first_rejected out = None <-> forallb (encodable enc) out = true.
Proof. apply find_none_forallb. Qed.

(** ** Running through the monad's operations *)

Lemma bind_inr {A B} (t : list event) (a : A) (f : A -> M B) :
  bind (t, inr a) f = (t ++ fst (f a), snd (f a)).
Proof. unfold bind. destruct (f a); reflexivity. Qed.

Lemma bind_ret_l {A B} (a : A) (f : A -> M B) : bind (ret a) f = f a.
Proof. unfold bind, ret. destruct (f a); reflexivity. Qed.

Lemma performs_ret {A} (a : A) (bound : nat) : performs (ret a) a [] bound.
Proof. exists []; repeat split; constructor. Qed.

Lemma take_while_encodable_app (o1 o2 : list pystr) :
  take_while (encodable enc) (o1 ++ o2) =
  match first_rejected o1 with
  | None => o1 ++ take_while (encodable enc) o2
  | Some _ => take_while (encodable enc) o1
  end.
Proof. apply take_while_app. Qed.

Lemma result_of_app {A} (a : A) (o1 o2 : list pystr) :
  result_of a (o1 ++ o2) =
  match first_rejected o1 with
  | None => result_of a o2
  | Some s => inl (UnicodeEncodeError (error_text enc s))
  end.
Proof.
  unfold result_of. rewrite first_rejected_app.
  destruct (first_rejected o1); reflexivity.
Qed.

Lemma performs_bind {A B} (m : M A) (f : A -> M B) (a : A) (b : B)
    (o1 o2 : list pystr) (bound : nat) :
  performs m a o1 bound -> performs (f a) b o2 bound ->
  performs (bind m f) b (o1 ++ o2) bound.
Proof.
  intros (t1 & -> & O1 & H1) (t2 & Hf & O2 & H2).
  unfold performs. rewrite result_of_app, take_while_encodable_app.
  unfold result_of at 1.
  destruct (first_rejected o1) as [s|] eqn:E.
  - exists t1. repeat split; assumption.
  - exists (t1 ++ t2). rewrite bind_inr, Hf. simpl. repeat split.
    + rewrite stdout_app, O1, O2, take_while_all;
        [reflexivity | apply first_rejected_none; exact E].
    + rewrite subscripts_app. apply Forall_app; split; assumption.
Qed.

Lemma performs_print (s : pystr) (bound : nat) :
  performs (print s) tt [s] bound.
Proof.
  unfold print, performs, result_of, first_rejected. simpl.
  destruct (encodable enc s); simpl.
  - exists [EvPrint s]. repeat split; constructor.
  - exists []. repeat split; constructor.
Qed.

Lemma performs_getitem (lines : list pystr) (n : nat) (x : pystr) :
  nth_error lines n = Some x ->
  performs (getitem lines (Z.of_nat n)) x [] (length lines).
Proof.
  intros Hx.
  assert (Hn : (n < length lines)%nat)
    by (apply nth_error_Some; congruence).
  exists [EvIndex (Z.of_nat n)].
  unfold getitem. rewrite (py_index_nat lines n Hn), Hx.
  repeat split. constructor; [lia | constructor].
Qed.

Lemma walk_eq (lines : list pystr) (j : Z) :
  walk lines j =
  if Z_ge_dec j 0 then
    x <- getitem lines j ;;
    if startswith x (lit "msgid") then
      y <- getitem lines j ;;
      print (context_line y) ;;
      walk lines (j - 1)
    else ret tt
  else ret tt.
Proof.
  simp walk. destruct (Z_ge_dec j 0); simp walk; reflexivity.
Qed.

Lemma context_of_S (lines : list pystr) (n : nat) (x : pystr) :
  nth_error lines n = Some x ->
  context_of lines (S n) =
  if msgid_prefixed x then x :: context_of lines n else [].
Proof.
  intros Hx. unfold context_of.
  rewrite (firstn_snoc lines n x Hx), rev_app_distr. reflexivity.
Qed.

(** The backward walk entered at [n - 1] has the context lines of position
    [n] to print, and subscripts inside the list only. *)
Lemma walk_performs (lines : list pystr) (n : nat) :
  (n <= length lines)%nat ->
  performs (walk lines (Z.of_nat n - 1)) tt
    (map context_line (context_of lines n)) (length lines).
Proof.
  induction n as [|n IH]; intros Hn; rewrite walk_eq.
  - destruct (Z_ge_dec (Z.of_nat 0 - 1) 0) as [H|_]; [simpl in H; lia|].
    apply performs_ret.
  - replace (Z.of_nat (S n) - 1) with (Z.of_nat n) by lia.
    destruct (Z_ge_dec (Z.of_nat n) 0) as [_|H]; [|lia].
    destruct (nth_error lines n) as [x|] eqn:Hx;
      [|apply nth_error_None in Hx; lia].
    rewrite (context_of_S lines n x Hx). unfold msgid_prefixed.
    eapply performs_bind with (o1 := []); [apply performs_getitem; eassumption|].
    destruct (startswith x (lit "msgid")); [|apply performs_ret].
    eapply performs_bind with (o1 := []); [apply performs_getitem; eassumption|].
    simpl map.
    eapply performs_bind with (o1 := [context_line x]); [apply performs_print|].
    apply IH; lia.
Qed.

Lemma getitem_nat (lines : list pystr) (n : nat) (x : pystr) :
  nth_error lines n = Some x ->
  getitem lines (Z.of_nat n) = ([EvIndex (Z.of_nat n)], inr x).
Proof.
  intros Hx. unfold getitem. rewrite py_index_nat, Hx; [reflexivity|].
  apply nth_error_Some. congruence.
Qed.

Lemma header_test_eq (lines : list pystr) (i : nat) :
  (i <= length lines)%nat ->
  header_test lines (Z.of_nat i) =
  ((if (0 <? i)%nat then [EvIndex (Z.of_nat i - 1)] else []),
   inr (header_flag lines i)).
Proof.
  intros Hi. unfold header_test, header_flag. destruct i as [|i].
  - reflexivity.
  - replace (Z.of_nat (S i) >? 0) with true by (symmetry; apply Z.gtb_lt; lia).
    replace (Z.of_nat (S i) - 1) with (Z.of_nat i) by lia.
    replace (S i - 1)%nat with i by lia.
    destruct (nth_error lines i) as [p|] eqn:Hp;
      [|apply nth_error_None in Hp; lia].
    rewrite (getitem_nat lines i p Hp). reflexivity.
Qed.

Lemma header_test_performs (lines : list pystr) (i : nat) :
  (i <= length lines)%nat ->
  performs (header_test lines (Z.of_nat i)) (header_flag lines i) []
    (length lines).
Proof.
  intros Hi. rewrite (header_test_eq lines i Hi).
  exists (if (0 <? i)%nat then [EvIndex (Z.of_nat i - 1)] else []).
  destruct i as [|i]; repeat split; constructor; [lia | constructor].
Qed.

(** One iteration of the [for] loop has the report block of its position
    to print. *)
Lemma scan_body_performs (lines : list pystr) (i : nat) (line : pystr) :
  (i <= length lines)%nat ->
  performs (scan_body lines (Z.of_nat i) line) tt
    (report_block lines i line) (length lines).
Proof.
  intros Hi. unfold scan_body, report_block, block, reported, entry_marker.
  destruct (eqb (strip line) msgstr_empty); [|apply performs_ret].
  simpl andb.
  eapply performs_bind with (o1 := []); [apply header_test_performs; assumption|].
  destruct (header_flag lines i); cbv beta zeta; cbn [negb];
    [apply performs_ret|].
  eapply performs_bind with (o1 := [_]); [apply performs_print|].
  apply walk_performs; assumption.
Qed.
(** ** The [for] loop *)

Lemma enumerate_cons {A} (k : nat) (x : A) (l : list A) :
  enumerate k (x :: l) = (k, x) :: enumerate (S k) l.
Proof. reflexivity. Qed.

(** Every pair of [enumerate k l] is a position of [l] shifted by [k]. *)
Lemma in_enumerate {A} (k : nat) (l : list A) (i : nat) (x : A) :
  In (i, x) (enumerate k l) <-> (k <= i)%nat /\ nth_error l (i - k) = Some x.
Proof.
  revert k; induction l as [|a l IH]; intros k.
  - simpl. split; [tauto|]. intros [_ H]. destruct (i - k)%nat; discriminate.
  - rewrite enumerate_cons. simpl. rewrite IH. split.
    + intros [[= <- <-]|[Hk Hx]].
      * rewrite Nat.sub_diag. split; [lia | reflexivity].
      * split; [lia|]. replace (i - k)%nat with (S (i - S k)) by lia.
        exact Hx.
    + intros [Hk Hx]. destruct (Nat.eq_dec k i) as [->|Hne].
      * rewrite Nat.sub_diag in Hx. left. simpl in Hx. congruence.
      * right. split; [lia|].
        replace (i - k)%nat with (S (i - S k)) in Hx by lia. exact Hx.
Qed.

Lemma in_enumerate_0 {A} (l : list A) (i : nat) (x : A) :
  In (i, x) (enumerate 0 l) <-> nth_error l i = Some x.
Proof.
  rewrite in_enumerate, Nat.sub_0_r. split; [tauto | split; [lia | assumption]].
Qed.

Lemma concat_map_filter {A B} (r : A -> bool) (f : A -> list B) (l : list A) :
  concat (map (fun p => if r p then f p else []) l) =
  concat (map f (filter r l)).
Proof.
  induction l as [|a l IH]; simpl; [reflexivity|].
  destruct (r a); simpl; rewrite IH; reflexivity.
Qed.

Lemma enumerate_app {A} (k : nat) (l m : list A) :
  enumerate k (l ++ m) = enumerate k l ++ enumerate (k + length l) m.
Proof.
  revert k; induction l as [|a l IH]; intros k.
  - simpl. rewrite Nat.add_0_r. reflexivity.
  - simpl app. rewrite !enumerate_cons, IH. simpl.
    rewrite Nat.add_succ_r. reflexivity.
Qed.

(** Two positions [i < j] cut the lines in three. *)
Lemma nth_error_split2 {A} (l : list A) (i j : nat) (a b : A) :
  (i < j)%nat -> nth_error l i = Some a -> nth_error l j = Some b ->
  exists l1 l2 l3,
    l = l1 ++ a :: l2 ++ b :: l3 /\
    length l1 = i /\ length (l1 ++ a :: l2) = j.
Proof.
  intros Hij Ha Hb.
  destruct (nth_error_split l j Hb) as (l12 & l3 & -> & Hj).
  rewrite nth_error_app1 in Ha by lia.
  destruct (nth_error_split l12 i Ha) as (l1 & l2 & -> & Hi).
  exists l1, l2, l3. rewrite <- app_assoc. simpl. auto.
Qed.

(** The loop over a suffix of the lines, entered with the index of the
    suffix, has the blocks of its positions to print, in order. *)
Lemma for_enumerate_performs (lines pre suf : list pystr) :
  lines = pre ++ suf ->
  performs (for_enumerate (scan_body lines) (Z.of_nat (length pre)) suf) tt
    (concat (map (fun p => report_block lines (fst p) (snd p))
                 (enumerate (length pre) suf)))
    (length lines).
Proof.
  revert pre; induction suf as [|x suf IH]; intros pre E.
  - apply performs_ret.
  - rewrite enumerate_cons. simpl.
    eapply performs_bind.
    + apply scan_body_performs. subst lines. rewrite length_app. lia.
    + replace (Z.of_nat (length pre) + 1) with (Z.of_nat (length (pre ++ [x])))
        by (rewrite length_app; simpl; lia).
      replace (S (length pre)) with (length (pre ++ [x]))
        by (rewrite length_app; simpl; lia).
      apply IH. rewrite <- app_assoc. exact E.
Qed.

(** The scan has the report to print: it prints it up to the first line
    standard output rejects, and subscripts inside the list only. *)
Lemma scan_performs (lines : list pystr) :
  performs (scan lines) tt (report lines) (length lines).
Proof. exact (for_enumerate_performs lines [] lines eq_refl). Qed.

Lemma scan_stdout (lines : list pystr) :
  stdout (fst (scan lines)) = take_while (encodable enc) (report lines).
Proof.
  destruct (scan_performs lines) as (t & -> & H & _). exact H.
Qed.

Lemma scan_result (lines : list pystr) :
  snd (scan lines) = result_of tt (report lines).
Proof.
  destruct (scan_performs lines) as (t & -> & _). reflexivity.
Qed.

Lemma scan_body_stdout (lines : list pystr) (i : nat) (line : pystr) :
  (i <= length lines)%nat ->
  stdout (fst (scan_body lines (Z.of_nat i) line)) =
  take_while (encodable enc) (report_block lines i line).
Proof.
  intros Hi. destruct (scan_body_performs lines i line Hi) as (t & -> & H & _).
  exact H.
Qed.

(** A reported position prints its location line, then its context lines
    up to the first one standard output rejects. *)
Lemma take_while_block (lines : list pystr) (i : nat) (line : pystr) :
  reported lines i line = true ->
  take_while (encodable enc) (block lines i line) =
  location_line (Z.of_nat i) line ::
    take_while (encodable enc) (map context_line (context_of lines i)).
Proof.
  intros Hr. unfold block. cbn [take_while].
  apply andb_true_iff in Hr as [Hm _].
  rewrite (location_encodable (Z.of_nat i) line Hm). reflexivity.
Qed.

(** A line to print belongs to the block of some position. *)
Lemma in_report (lines : list pystr) (s : pystr) :
  In s (report lines) <->
  exists i line, nth_error lines i = Some line /\
                 In s (report_block lines i line).
Proof.
  unfold report. rewrite in_concat. split.
  - intros (b & Hb & Hs). apply in_map_iff in Hb as ([i line] & <- & Hp).
    apply in_enumerate_0 in Hp. exists i, line; auto.
  - intros (i & line & Hn & Hs). exists (report_block lines i line).
    split; [|assumption]. apply in_map_iff. exists (i, line).
    split; [reflexivity | apply in_enumerate_0; assumption].
Qed.

(** What is printed was to be printed. *)
Lemma in_scan_stdout (lines : list pystr) (s : pystr) :
  In s (stdout (fst (scan lines))) -> In s (report lines).
Proof.
  rewrite scan_stdout. intros H. apply in_take_while in H. tauto.
Qed.

(** ** The printed formats *)

Lemma lit_inj (s t : string) : lit s = lit t -> s = t.
Proof.
  unfold lit. intros H.
  rewrite <- (string_of_list_ascii_of_string s),
          <- (string_of_list_ascii_of_string t).
  f_equal.
  revert H. generalize (list_ascii_of_string s) (list_ascii_of_string t).
  intros l; induction l as [|a l IH]; intros [|b m]; simpl;
    try discriminate; [reflexivity|].
  intros [= Hab Hlm]. f_equal; [|apply IH; assumption].
  rewrite <- (ascii_N_embedding a), <- (ascii_N_embedding b), Hab.
  reflexivity.
Qed.

Lemma to_int_proper (z : Z) :
  Z.to_int z <> Decimal.Pos Decimal.Nil /\
  Z.to_int z <> Decimal.Neg Decimal.Nil.
Proof.
  destruct z as [|p|p]; simpl; split; try discriminate;
    intros [= H]; exact (DecimalPos.Unsigned.to_uint_nonnil p H).
Qed.

(** [str] is injective on integers. *)
Lemma str_of_int_inj (a b : Z) : str_of_int a = str_of_int b -> a = b.
Proof.
  unfold str_of_int. intros H. apply lit_inj in H.
  apply DecimalZ.to_int_inj.
  destruct (to_int_proper a) as [Ha1 Ha2], (to_int_proper b) as [Hb1 Hb2].
  pose proof (DecimalString.NilZero.isi (Z.to_int a) Ha1 Ha2) as Ia.
  pose proof (DecimalString.NilZero.isi (Z.to_int b) Hb1 Hb2) as Ib.
  rewrite H in Ia. congruence.
Qed.

Lemma uint_no_colon (d : Decimal.uint) :
  Forall (fun c => c <> colon)
         (lit (DecimalString.NilEmpty.string_of_uint d)).
Proof.
  induction d; simpl; constructor; try assumption; discriminate.
Qed.

(** A numeral holds no colon. *)
Lemma str_of_int_no_colon (z : Z) :
  Forall (fun c => c <> colon) (str_of_int z).
Proof.
  unfold str_of_int.
  assert (U : forall d,
             Forall (fun c => c <> colon)
                    (lit (DecimalString.NilZero.string_of_uint d))).
  { intros d. destruct d; try apply uint_no_colon.
    simpl. constructor; [discriminate | constructor]. }
  destruct (Z.to_int z) as [d|d]; simpl.
  - apply U.
  - constructor; [discriminate | apply U].
Qed.

(** Two strings cut at their first occurrence of a separator agree on both
    sides of it. *)
Lemma split_at_first {A} (c : A) (u v x y : list A) :
  Forall (fun a => a <> c) u -> Forall (fun a => a <> c) v ->
  u ++ c :: x = v ++ c :: y -> u = v /\ x = y.
Proof.
  intros Hu; revert v; induction Hu as [|a u Ha Hu IH];
    intros v Hv E; destruct Hv as [|b v Hb Hv]; simpl in E.
  - injection E as ->; auto.
  - injection E as E _. congruence.
  - injection E as E _. congruence.
  - injection E as -> E. destruct (IH v Hv E) as [-> ->]; auto.
Qed.

(** A string of the location format determines its number and its text. *)
Lemma location_format_inj (a b : Z) (x y : pystr) :
  lit "Line " ++ str_of_int a ++ lit ": " ++ x =
  lit "Line " ++ str_of_int b ++ lit ": " ++ y ->
  a = b /\ x = y.
Proof.
  intros E. apply app_inv_head in E.
  change (lit ": ") with ([colon; 32%N]) in E. simpl in E.
  destruct (split_at_first colon _ _ _ _
              (str_of_int_no_colon a) (str_of_int_no_colon b) E) as [Hn Hx].
  split; [apply str_of_int_inj; assumption | congruence].
Qed.

(** The lines of a block: the location line of a reported position, or a
    context line. *)
Lemma in_report_block (lines : list pystr) (i : nat) (line s : pystr) :
  In s (report_block lines i line) ->
  (reported lines i line = true /\ s = location_line (Z.of_nat i) line) \/
  (exists l, s = context_line l).
Proof.
  unfold report_block, block. destruct (reported lines i line); [|intros []].
  intros [<-|H]; [left; auto|].
  right. apply in_map_iff in H as (l & <- & _). exists l; reflexivity.
Qed.

(** A line of the location format with the number of position [i] is
    to be printed exactly when position [i] is reported, and then carries the
    trimmed text of that position. *)
Lemma location_in_report (lines : list pystr) (i : nat) (s : pystr) :
  In (lit "Line " ++ str_of_int (Z.of_nat i + 1) ++ lit ": " ++ s)
     (report lines) <->
  exists line, nth_error lines i = Some line /\
               reported lines i line = true /\ s = strip line.
Proof.
  rewrite in_report. split.
  - intros (j & lj & Hj & Hs).
    apply in_report_block in Hs as [[Hr E]|[l E]].
    + apply location_format_inj in E as [En Es].
      assert (i = j) by lia. subst j. exists lj; auto.
    + exfalso. revert E. unfold context_line. simpl. discriminate.
  - intros (line & Hn & Hr & ->). exists i, line. split; [assumption|].
    unfold report_block. rewrite Hr. left. reflexivity.
Qed.

(** ** The script around the scan *)

Lemma run_eq (fs : filesystem) :
  run fs =
  (fs,
   try_except (lines <- ([], fs catalog_path) ;; scan lines)
     (fun e => print (str_of_exception e))).
Proof. reflexivity. Qed.

Lemma print_exception (e : exception) :
  print (str_of_exception e) = ([EvPrint (str_of_exception e)], inr tt).
Proof. unfold print. rewrite str_of_exception_encodable. reflexivity. Qed.

Lemma script_read_error (fs : filesystem) (e : exception) :
  fs catalog_path = inl e ->
  script fs = ([EvPrint (str_of_exception e)], inr tt).
Proof.
  intros H. unfold script. rewrite run_eq, H. cbn [snd bind try_except].
  rewrite print_exception. reflexivity.
Qed.




(** ** Counting what the loops do *)

(** The backward walk entered at any index [j]: it subscripts only at
    indices between [0] and [j], in decreasing order, and runs at most
    [j + 1] iterations of three events each. *)
Lemma walk_bounded (lines : list pystr) (j : Z) :
  Forall (fun k => 0 <= k <= j) (subscripts (fst (walk lines j))) /\
  StronglySorted Z.ge (subscripts (fst (walk lines j))) /\
  (length (stdout (fst (walk lines j))) <= Z.to_nat (j + 1))%nat /\
  (length (fst (walk lines j)) <= 3 * Z.to_nat (j + 1))%nat.
Proof.
  remember (Z.to_nat (j + 1)) as n eqn:En. revert j En.
  induction n as [|n IH]; intros j En; rewrite walk_eq.
  - destruct (Z_ge_dec j 0) as [H|_]; [lia|].
    simpl. repeat split; auto; constructor.
  - destruct (Z_ge_dec j 0) as [Hj|H]; [|lia].
    unfold getitem. destruct (py_index lines j) as [x|].
    + rewrite bind_inr. destruct (startswith x (lit "msgid")).
      * rewrite bind_inr. unfold print.
        destruct (encodable enc (context_line x)).
        -- destruct (IH (j - 1)) as (Hb & Hs & Ho & He); [lia|].
           rewrite bind_inr.
           destruct (walk lines (j - 1)) as [t r].
           cbn [fst snd app stdout subscripts length] in *.
           repeat split; try lia.
           ++ constructor; [lia|]. constructor; [lia|].
              eapply Forall_impl; [|exact Hb]. simpl; intros; lia.
           ++ assert (Hle : Forall (fun k => j >= k) (subscripts t))
                by (eapply Forall_impl; [|exact Hb]; simpl; intros; lia).
              constructor; [constructor; assumption|].
              constructor; [lia | assumption].
        -- simpl. repeat split; try lia.
           ++ constructor; [lia|]. constructor; [lia | constructor].
           ++ constructor; [constructor; constructor|].
              constructor; [lia | constructor].
      * simpl. repeat split; try lia.
        -- constructor; [lia | constructor].
        -- constructor; constructor.
    + simpl. repeat split; try lia.
      * constructor; [lia | constructor].
      * constructor; constructor.
Qed.


Lemma lstrip_snoc (l : pystr) (a : pychar) :
  isspace a = false -> lstrip (l ++ [a]) = lstrip l ++ [a].
Proof.
  intros Ha. induction l as [|c l IH]; simpl.
  - rewrite Ha. reflexivity.
  - destruct (isspace c); [exact IH | reflexivity].
Qed.

Lemma rstrip_cons (a : pychar) (s : pystr) :
  isspace a = false -> rstrip (a :: s) = a :: rstrip s.
Proof.
  intros Ha. unfold rstrip. simpl rev.
  rewrite (lstrip_snoc _ a Ha), rev_app_distr. reflexivity.
Qed.

(** An Entry Marker does not start with [msgid]. *)
Lemma marker_not_msgid (x : pystr) :
  entry_marker x = true -> msgid_prefixed x = false.
Proof.
  intros Hm. destruct (msgid_prefixed x) eqn:Px; [|reflexivity].
  apply startswith_inv in Px as [r ->]. apply eqb_eq in Hm.
  exfalso. revert Hm. unfold strip. simpl lstrip.
  rewrite !rstrip_cons by reflexivity. discriminate.
Qed.




(** ** Whitespace and [strip] *)

Lemma lstrip_spaces (a s : pystr) :
  all_space a = true -> lstrip (a ++ s) = lstrip s.
Proof.
  induction a as [|c a IH]; simpl; [reflexivity|].
  intros H. apply andb_true_iff in H as [Hc Ha]. rewrite Hc. auto.
Qed.

Lemma all_space_rev (b : pystr) : all_space (rev b) = all_space b.
Proof.
  unfold all_space. induction b as [|c b IH]; simpl; [reflexivity|].
  rewrite forallb_app, IH. simpl. rewrite andb_true_r. apply andb_comm.
Qed.

Lemma rstrip_spaces (s b : pystr) :
  all_space b = true -> rstrip (s ++ b) = rstrip s.
Proof.
  intros Hb. unfold rstrip. rewrite rev_app_distr, lstrip_spaces;
    [reflexivity | rewrite all_space_rev; exact Hb].
Qed.

(** What [lstrip] removes is whitespace. *)
Lemma lstrip_decompose (l : pystr) :
  exists a, all_space a = true /\ l = a ++ lstrip l.
Proof.
  induction l as [|c l (a & Ha & E)]; simpl.
  - exists []; auto.
  - destruct (isspace c) eqn:Hc.
    + exists (c :: a). simpl. rewrite Hc, Ha. split; [reflexivity|].
      f_equal. exact E.
    + exists []; auto.
Qed.

(** What [rstrip] removes is whitespace. *)
Lemma rstrip_decompose (l : pystr) :
  exists b, all_space b = true /\ l = rstrip l ++ b.
Proof.
  destruct (lstrip_decompose (rev l)) as (a & Ha & E).
  exists (rev a). rewrite all_space_rev. split; [exact Ha|].
  unfold rstrip. rewrite <- rev_app_distr, <- E, rev_involutive. reflexivity.
Qed.

Lemma lstrip_app (s b : pystr) :
  lstrip (s ++ b) =
  match lstrip s with
  | [] => lstrip b
  | _ :: _ => lstrip s ++ b
  end.
Proof.
  induction s as [|c s IH]; simpl.
  - destruct (lstrip b); reflexivity.
  - destruct (isspace c); [exact IH | reflexivity].
Qed.

(** Trailing whitespace does not change what [strip] returns. *)
Lemma strip_trailing (s b : pystr) :
  all_space b = true -> strip (s ++ b) = strip s.
Proof.
  intros Hb. unfold strip. rewrite lstrip_app.
  destruct (lstrip s) as [|c r] eqn:E.
  - pose proof (lstrip_spaces b [] Hb) as H. rewrite app_nil_r in H.
    rewrite H. reflexivity.
  - apply rstrip_spaces; exact Hb.
Qed.

(** Whitespace around a text that starts with a non-blank character is
    stripped away. *)
Lemma strip_padded (a b : pystr) (c : pychar) (m : pystr) :
  all_space a = true -> all_space b = true -> isspace c = false ->
  strip (a ++ (c :: m) ++ b) = rstrip (c :: m).
Proof.
  intros Ha Hb Hc. unfold strip. rewrite (lstrip_spaces a _ Ha).
  simpl. rewrite Hc. apply (rstrip_spaces (c :: m) b Hb).
Qed.

Lemma same_trailing_strip (l l' : pystr) :
  same_up_to_trailing_space l l' -> strip l = strip l'.
Proof.
  unfold same_up_to_trailing_space. intros E.
  destruct (rstrip_decompose l) as (b & Hb & El).
  destruct (rstrip_decompose l') as (b' & Hb' & El').
  rewrite El, El', (strip_trailing _ b Hb), (strip_trailing _ b' Hb'), E.
  reflexivity.
Qed.

(** A prefix without blanks is found or missed alike whatever whitespace
    follows the string. *)
Lemma startswith_trailing (s b p : pystr) :
  all_space b = true -> forallb (fun c => negb (isspace c)) p = true ->
  startswith (s ++ b) p = startswith s p.
Proof.
  intros Hb. revert s; induction p as [|d p IH]; intros s Hp;
    [reflexivity|].
  simpl in Hp. apply andb_true_iff in Hp as [Hd Hp].
  destruct s as [|c s]; simpl.
  - destruct b as [|c b]; [reflexivity|].
    simpl in Hb. apply andb_true_iff in Hb as [Hc _].
    destruct (N.eqb_spec c d) as [->|_]; [|reflexivity].
    rewrite Hc in Hd. discriminate.
  - rewrite (IH s Hp). reflexivity.
Qed.

Lemma same_trailing_msgid (l l' : pystr) :
  same_up_to_trailing_space l l' -> msgid_prefixed l = msgid_prefixed l'.
Proof.
  unfold same_up_to_trailing_space, msgid_prefixed. intros E.
  destruct (rstrip_decompose l) as (b & Hb & El).
  destruct (rstrip_decompose l') as (b' & Hb' & El').
  rewrite El, El', (startswith_trailing _ b (lit "msgid") Hb eq_refl),
          (startswith_trailing _ b' (lit "msgid") Hb' eq_refl), E.
  reflexivity.
Qed.

(** ** Lines before and after a position *)

(** The contribution of a position depends on the lines before it and on
    its own line, not on what follows. *)
Lemma report_block_prefix (pre suf : list pystr) (i : nat) (line : pystr) :
  (i < length pre)%nat ->
  report_block (pre ++ suf) i line = report_block pre i line.
Proof.
  intros Hi. unfold report_block, block, reported, header_flag, context_of.
  assert (Hn : forall k, (k < length pre)%nat ->
                 nth_error (pre ++ suf) k = nth_error pre k)
    by (intros k Hk; apply nth_error_app1; exact Hk).
  rewrite (Hn (i - 1)%nat) by lia.
  rewrite firstn_app. replace (i - length pre)%nat with 0%nat by lia.
  simpl firstn. rewrite app_nil_r. reflexivity.
Qed.

Lemma enumerate_lt {A} (l : list A) (p : nat * A) :
  In p (enumerate 0 l) -> (fst p < length l)%nat.
Proof.
  destruct p as [i x]. rewrite in_enumerate_0. intros H. simpl.
  apply nth_error_Some. congruence.
Qed.

Lemma report_app (pre suf : list pystr) :
  report (pre ++ suf) =
  report pre ++
  concat (map (fun p => report_block (pre ++ suf) (fst p) (snd p))
              (enumerate (length pre) suf)).
Proof.
  unfold report. rewrite enumerate_app, map_app, concat_app. simpl.
  f_equal. f_equal. apply map_ext_in. intros p Hp.
  apply report_block_prefix, enumerate_lt, Hp.
Qed.

(** What the iterations before position [i] have to print is the report
    of the first [i] lines. *)
Lemma report_split (lines : list pystr) (i : nat) (line : pystr) :
  nth_error lines i = Some line ->
  exists after,
    report lines = report (firstn i lines) ++ report_block lines i line ++ after.
Proof.
  intros Hn. pose proof (firstn_skipn_middle i lines Hn) as E.
  assert (Hlen : length (firstn i lines) = i).
  { apply firstn_length_le, Nat.lt_le_incl, nth_error_Some. congruence. }
  assert (R : report lines =
              report (firstn i lines ++ line :: skipn (S i) lines))
    by (rewrite E; reflexivity).
  rewrite R, report_app, enumerate_cons. cbn [map concat fst snd].
  rewrite Hlen, E. eexists. reflexivity.
Qed.

(** The run of [msgid]-prefixed lines above a position lies below every
    Entry Marker that precedes the position. *)
Lemma context_below_marker (lines : list pystr) (i : nat) (li : pystr) (d : nat) :
  nth_error lines i = Some li -> entry_marker li = true ->
  (length (context_of lines (S i + d)) <= d)%nat.
Proof.
  intros Hi Hm. induction d as [|d IH].
  - rewrite Nat.add_0_r, (context_of_S lines i li Hi),
            (marker_not_msgid li Hm). simpl. lia.
  - replace (S i + S d)%nat with (S (S i + d)) by lia.
    destruct (nth_error lines (S i + d)) as [x|] eqn:Hx.
    + rewrite (context_of_S lines _ x Hx).
      destruct (msgid_prefixed x); cbn [length]; lia.
    + apply nth_error_None in Hx. unfold context_of in *.
      rewrite firstn_all2 by lia. rewrite firstn_all2 in IH by lia. lia.
Qed.

(** The context lines of position [i] are the lines at [i-1], [i-2], ...
    in that order, as long as they start with [msgid]: the run stops at the
    first line that does not, or at the start of the file. *)
Lemma context_of_run (lines : list pystr) (i : nat) :
  (i <= length lines)%nat ->
  exists k,
    (k <= i)%nat /\ length (context_of lines i) = k /\
    (forall m, (m < k)%nat ->
       exists l, nth_error lines (i - 1 - m) = Some l /\
                 msgid_prefixed l = true /\
                 nth_error (context_of lines i) m = Some l) /\
    (k = i \/
     exists l, nth_error lines (i - 1 - k) = Some l /\
               msgid_prefixed l = false).
Proof.
  induction i as [|i IH]; intros Hi.
  - exists 0%nat. repeat split; auto. intros m Hm; lia.
  - destruct (nth_error lines i) as [x|] eqn:Hx;
      [|apply nth_error_None in Hx; lia].
    rewrite (context_of_S lines i x Hx).
    destruct (msgid_prefixed x) eqn:Px.
    + destruct IH as (k & Hk & Hlen & Hrun & Hstop); [lia|].
      exists (S k). repeat split; [lia | simpl; lia | |].
      * intros [|m] Hm.
        -- exists x. replace (S i - 1 - 0)%nat with i by lia. auto.
        -- destruct (Hrun m) as (l & Hl & Pl & Hc); [lia|].
           exists l. replace (S i - 1 - S m)%nat with (i - 1 - m)%nat by lia.
           auto.
      * destruct Hstop as [->|(l & Hl & Pl)]; [left; reflexivity|].
        right. exists l.
        replace (S i - 1 - S k)%nat with (i - 1 - k)%nat by lia. auto.
    + exists 0%nat. repeat split; [lia | | ].
      * intros m Hm; lia.
      * right. exists x. replace (S i - 1 - 0)%nat with i by lia. auto.
Qed.

Lemma Forall2_nth_error {A B} (R : A -> B -> Prop) (l : list A) (l' : list B)
    (i : nat) (x : A) :
  Forall2 R l l' -> nth_error l i = Some x ->
  exists y, nth_error l' i = Some y /\ R x y.
Proof.
  intros H; revert i; induction H as [|a b l l' Hab H IH]; intros i Hx.
  - destruct i; discriminate.
  - destruct i as [|i]; simpl in *.
    + injection Hx as <-. exists b; auto.
    + apply IH; exact Hx.
Qed.

Lemma same_trailing_context (lines lines' : list pystr) (i : nat) :
  Forall2 same_up_to_trailing_space lines lines' ->
  map context_line (context_of lines i) =
  map context_line (context_of lines' i).
Proof.
  intros H. induction i as [|i IH]; [reflexivity|].
  destruct (nth_error lines i) as [x|] eqn:Hx.
  - destruct (Forall2_nth_error _ lines lines' i x H Hx) as (y & Hy & Rxy).
    rewrite (context_of_S lines i x Hx), (context_of_S lines' i y Hy),
            (same_trailing_msgid x y Rxy).
    destruct (msgid_prefixed y); [|reflexivity].
    cbn [map]. rewrite IH. unfold context_line.
    rewrite (same_trailing_strip x y Rxy). reflexivity.
  - assert (Hx' : nth_error lines' i = None).
    { apply nth_error_None. rewrite <- (Forall2_length H).
      apply nth_error_None; exact Hx. }
    apply nth_error_None in Hx, Hx'. unfold context_of in *.
    rewrite firstn_all2 by lia. rewrite (firstn_all2 lines') by lia.
    rewrite firstn_all2 in IH by lia.
    rewrite (firstn_all2 lines') in IH by lia. exact IH.
Qed.

Lemma same_trailing_block (lines lines' : list pystr) (i : nat)
    (x y : pystr) :
  Forall2 same_up_to_trailing_space lines lines' ->
  same_up_to_trailing_space x y ->
  report_block lines i x = report_block lines' i y.
Proof.
  intros H Rxy.
  assert (Hf : header_flag lines i = header_flag lines' i).
  { unfold header_flag. destruct (nth_error lines (i - 1)) as [p|] eqn:Hp.
    - destruct (Forall2_nth_error _ lines lines' _ p H Hp) as (q & -> & Rpq).
      rewrite (same_trailing_strip p q Rpq). reflexivity.
    - assert (Hq : nth_error lines' (i - 1) = None).
      { apply nth_error_None. rewrite <- (Forall2_length H).
        apply nth_error_None; exact Hp. }
      rewrite Hq. reflexivity. }
  unfold report_block, block, reported, entry_marker, location_line.
  rewrite Hf, (same_trailing_strip x y Rxy),
          (same_trailing_context lines lines' i H).
  reflexivity.
Qed.

Lemma same_trailing_enumerate (f g : nat -> pystr -> list pystr)
    (l l' : list pystr) (k : nat) :
  Forall2 (fun x y => forall i, f i x = g i y) l l' ->
  concat (map (fun p => f (fst p) (snd p)) (enumerate k l)) =
  concat (map (fun p => g (fst p) (snd p)) (enumerate k l')).
Proof.
  intros H; revert k; induction H as [|x y l l' Hxy H IH]; intros k;
    [reflexivity|].
  rewrite !enumerate_cons. cbn [map concat fst snd].
  rewrite Hxy, IH. reflexivity.
Qed.

Lemma indented_not_msgid (c : pychar) (r : pystr) :
  isspace c = true -> msgid_prefixed (c :: r) = false.
Proof.
  intros Hc. unfold msgid_prefixed. simpl.
  destruct (N.eqb_spec c 109) as [->|_]; [discriminate | reflexivity].
Qed.



(** The first line to print, when there is one, is a location line: one
    that standard output accepts. *)
Lemma report_head_encodable (lines : list pystr) (s : pystr) (r : list pystr) :
  report lines = s :: r -> encodable enc s = true.
Proof.
  unfold report. generalize (enumerate 0 lines). intros L.
  induction L as [|p L IH]; cbn [map concat]; [discriminate|].
  unfold report_block at 1. destruct (reported lines (fst p) (snd p)) eqn:Hr.
  - unfold block. cbn [app]. intros [= <- _].
    apply andb_true_iff in Hr as [Hm _]. apply location_encodable, Hm.
  - exact IH.
Qed.

(** A block holds one line of the location format, its first. *)
Lemma filter_location_block (lines : list pystr) (i : nat) (line : pystr) :
  filter is_location (block lines i line) = [location_line (Z.of_nat i) line].
Proof.
  unfold block. simpl.
  replace (is_location (location_line (Z.of_nat i) line)) with true
    by (symmetry; apply startswith_app).
  f_equal. induction (context_of lines i) as [|l c IH]; [reflexivity|].
  simpl. exact IH.
Qed.

Lemma report_blocks (lines : list pystr) :
  report lines =
  concat (map (fun p => block lines (fst p) (snd p))
              (filter (fun p => reported lines (fst p) (snd p))
                      (enumerate 0 lines))).
Proof.
  unfold report, report_block.
  apply (concat_map_filter (fun p => reported lines (fst p) (snd p))
           (fun p => block lines (fst p) (snd p))).
Qed.

Lemma filter_location_report (lines : list pystr) :
  filter is_location (report lines) =
  map (fun p => location_line (Z.of_nat (fst p)) (snd p))
      (filter (fun p => reported lines (fst p) (snd p)) (enumerate 0 lines)).
Proof.
  rewrite report_blocks, <- concat_filter_map, map_map.
  induction (filter (fun p => reported lines (fst p) (snd p))
                    (enumerate 0 lines)) as [|p l IH]; [reflexivity|].
  cbn [map concat]. rewrite filter_location_block, IH. reflexivity.
Qed.

Lemma for_enumerate_no_marker (lines l : list pystr) (k : Z) :
  (forall line, In line l -> entry_marker line = false) ->
  for_enumerate (scan_body lines) k l = ret tt.
Proof.
  revert k; induction l as [|x l IH]; intros k Hall; [reflexivity|].
  simpl. unfold scan_body at 1. fold (entry_marker x).
  rewrite (Hall x (or_introl eq_refl)), bind_ret_l.
  apply IH. intros line Hl. apply Hall. right; exact Hl.
Qed.

(** * The claims *)

(** ** C1: when an Entry Marker is reported *)

(** C1.  For a line at position [i] whose trimmed content is the empty
    [msgstr], the scan prints the location line [Line <i+1>: <trimmed>] of
    that position exactly when the Header Flag of [i] is false (the flag
    being: [i] is greater than zero and the preceding line, trimmed, is the
    empty [msgid]) and standard output accepted every line the earlier
    iterations had to print: a [print] that raises ends the scan.  In a run
    where standard output accepts every line to print, exactly when the
    Header Flag is false.  The iteration at [i] prints that line first when
    it prints, and prints nothing when the flag is true. *)
Theorem marker_reported_iff_not_header
    (lines : list pystr) (i : nat) (line : pystr) :
  nth_error lines i = Some line ->
  strip line = msgstr_empty ->
  (In (lit "Line " ++ str_of_int (Z.of_nat i + 1) ++ lit ": " ++ strip line)
      (stdout (fst (scan lines))) <->
   header_flag lines i = false /\
   forallb (encodable enc) (report (firstn i lines)) = true) /\
  (forallb (encodable enc) (report lines) = true ->
   (In (lit "Line " ++ str_of_int (Z.of_nat i + 1) ++ lit ": " ++ strip line)
       (stdout (fst (scan lines))) <->
    header_flag lines i = false)) /\
  hd_error (stdout (fst (scan_body lines (Z.of_nat i) line))) =
    (if header_flag lines i then None
     else Some (lit "Line " ++ str_of_int (Z.of_nat i + 1) ++ lit ": " ++
                strip line)) /\
  (header_flag lines i = true ->
   stdout (fst (scan_body lines (Z.of_nat i) line)) = []).
Proof.
  intros Hn Hm.
  assert (Hi : (i <= length lines)%nat).
  { apply Nat.lt_le_incl, nth_error_Some. congruence. }
  assert (He : entry_marker line = true).
  { unfold entry_marker. rewrite Hm. apply eqb_refl. }
  assert (Hr : reported lines i line = negb (header_flag lines i)).
  { unfold reported. rewrite He. reflexivity. }
  assert (Hrep : In (lit "Line " ++ str_of_int (Z.of_nat i + 1) ++ lit ": " ++
                     strip line) (report lines) <->
                 header_flag lines i = false).
  { rewrite location_in_report. split.
    - intros (l & Hl & Hrl & _). rewrite Hn in Hl. injection Hl as <-.
      rewrite Hr in Hrl. destruct (header_flag lines i);
        [discriminate | reflexivity].
    - intros Hf. exists line. rewrite Hr, Hf. auto. }
  split; [|split; [|split]].
  - rewrite scan_stdout. destruct (report_split lines i line Hn) as (after & E).
    rewrite E, take_while_encodable_app.
    destruct (first_rejected (report (firstn i lines))) as [u|] eqn:Ef.
    + split.
      * intros Hin. exfalso. apply in_take_while in Hin as [Hin _].
        apply location_in_report in Hin as (l & Hl & _).
        rewrite nth_error_firstn, Nat.ltb_irrefl in Hl. discriminate.
      * intros [_ Hall]. apply first_rejected_none in Hall. congruence.
    + apply first_rejected_none in Ef. split.
      * intros Hin. split; [|exact Ef]. apply Hrep. rewrite E.
        apply in_or_app. apply in_app_or in Hin as [Hin|Hin];
          [left; exact Hin|]. right. apply in_take_while in Hin. tauto.
      * intros [Hf _]. apply in_or_app. right.
        unfold report_block. rewrite Hr, Hf. cbn [negb].
        unfold block. cbn [app take_while].
        rewrite (location_encodable (Z.of_nat i) line He). left. reflexivity.
  - intros Hall. rewrite scan_stdout, (take_while_all _ _ Hall). exact Hrep.
  - rewrite (scan_body_stdout lines i line Hi). unfold report_block.
    rewrite Hr. destruct (header_flag lines i); [reflexivity|].
    cbn [negb]. rewrite take_while_block by (rewrite Hr; assumption || reflexivity).
    reflexivity.
  - intros Hf. rewrite (scan_body_stdout lines i line Hi). unfold report_block.
    rewrite Hr, Hf. reflexivity.
Qed.

(** ** C2: the context lines of a reported marker *)

(** C2.  For a reported marker at position [i], the iteration prints the
    location line and then, for the lines met walking backward from [i-1]
    while the raw line starts with [msgid], the context lines
    [  Context: <trimmed>] up to the first one standard output rejects (a
    [print] that raises ends the scan): the [m]-th line of the walk is line
    [i-1-m], and the run ends at the first line without the prefix or at
    the start of the file.  With two [msgid]-prefixed lines just above the
    marker whose context lines standard output accepts, the nearer one is
    printed first. *)
Theorem context_walk_backward (lines : list pystr) (i : nat) (line : pystr) :
  nth_error lines i = Some line ->
  reported lines i line = true ->
  stdout (fst (scan_body lines (Z.of_nat i) line)) =
    (lit "Line " ++ str_of_int (Z.of_nat i + 1) ++ lit ": " ++ strip line) ::
    take_while (encodable enc)
      (map (fun l => lit "  Context: " ++ strip l) (context_of lines i)) /\
  stdout (fst (walk lines (Z.of_nat i - 1))) =
    take_while (encodable enc)
      (map (fun l => lit "  Context: " ++ strip l) (context_of lines i)) /\
  (exists k,
     (k <= i)%nat /\ length (context_of lines i) = k /\
     (forall m, (m < k)%nat ->
        exists l, nth_error lines (i - 1 - m) = Some l /\
                  msgid_prefixed l = true /\
                  nth_error (context_of lines i) m = Some l) /\
     (k = i \/
      exists l, nth_error lines (i - 1 - k) = Some l /\
                msgid_prefixed l = false)) /\
  (forall a b,
     (2 <= i)%nat ->
     nth_error lines (i - 2) = Some a -> msgid_prefixed a = true ->
     nth_error lines (i - 1) = Some b -> msgid_prefixed b = true ->
     encodable enc (lit "  Context: " ++ strip a) = true ->
     encodable enc (lit "  Context: " ++ strip b) = true ->
     exists rest,
       stdout (fst (walk lines (Z.of_nat i - 1))) =
       (lit "  Context: " ++ strip b) :: (lit "  Context: " ++ strip a) :: rest).
Proof.
  intros Hn Hr.
  assert (Hi : (i <= length lines)%nat).
  { apply Nat.lt_le_incl, nth_error_Some. congruence. }
  assert (Hw : stdout (fst (walk lines (Z.of_nat i - 1))) =
               take_while (encodable enc)
                 (map (fun l => lit "  Context: " ++ strip l)
                      (context_of lines i))).
  { destruct (walk_performs lines i Hi) as (t & -> & H & _). exact H. }
  split; [|split; [|split]].
  - rewrite (scan_body_stdout lines i line Hi). unfold report_block.
    rewrite Hr. apply (take_while_block lines i line Hr).
  - exact Hw.
  - apply context_of_run; assumption.
  - intros a b H2 Ha Pa Hb Pb Ea Eb. rewrite Hw.
    destruct i as [|[|n]]; [lia | lia |].
    replace (S (S n) - 1)%nat with (S n) in Hb by lia.
    replace (S (S n) - 2)%nat with n in Ha by lia.
    rewrite (context_of_S lines (S n) b Hb), Pb,
            (context_of_S lines n a Ha), Pa.
    cbn [map take_while]. rewrite Eb, Ea. eexists. reflexivity.
Qed.

(** ** C3: a marker that follows an empty [msgid] is suppressed *)

(** C3.  An Entry Marker at any position [i > 0] whose preceding line,
    trimmed, is the empty [msgid] produces nothing: its iteration prints
    neither a location line nor context lines, and no location line with
    its number occurs in the output; a file made of that pair alone yields
    an empty report. *)
Theorem header_marker_suppressed
    (lines : list pystr) (i : nat) (p line : pystr) :
  (0 < i)%nat ->
  nth_error lines (i - 1) = Some p ->
  nth_error lines i = Some line ->
  strip p = msgid_empty ->
  strip line = msgstr_empty ->
  stdout (fst (scan_body lines (Z.of_nat i) line)) = [] /\
  (forall s,
     ~ In (lit "Line " ++ str_of_int (Z.of_nat i + 1) ++ lit ": " ++ s)
          (stdout (fst (scan lines)))) /\
  stdout (fst (scan [p; line])) = [].
Proof.
  intros Hi Hp Hn Ep Em.
  assert (Hf : header_flag lines i = true).
  { unfold header_flag. rewrite Hp, Ep, eqb_refl.
    apply andb_true_iff; split; [apply Nat.ltb_lt; assumption | reflexivity]. }
  assert (Hr : reported lines i line = false).
  { unfold reported. rewrite Hf. apply andb_false_r. }
  assert (Hle : (i <= length lines)%nat).
  { apply Nat.lt_le_incl, nth_error_Some. congruence. }
  repeat split.
  - rewrite (scan_body_stdout lines i line Hle). unfold report_block.
    rewrite Hr. reflexivity.
  - intros s Hin. apply in_scan_stdout, location_in_report in Hin.
    destruct Hin as (l & Hl & Hrl & _). congruence.
  - rewrite scan_stdout. unfold report, enumerate.
    cbn [length seq combine map fst snd concat].
    assert (R0 : report_block [p; line] 0 p = []).
    { unfold report_block, reported, entry_marker. rewrite Ep. reflexivity. }
    assert (R1 : report_block [p; line] 1 line = []).
    { unfold report_block, reported, header_flag. cbn [Nat.sub nth_error].
      rewrite Ep, eqb_refl, andb_false_r. reflexivity. }
    rewrite R0, R1. reflexivity.
Qed.

(** ** C4: a failure to read the file is caught and printed once *)

(** C4.  When opening, reading or decoding the file raises, the script
    performs exactly one event, the printing of the error's description,
    and ends normally: nothing is printed before or after it, no report
    block among it, and no exception leaves the script. *)
Theorem read_failure_printed_once (fs : filesystem) (e : exception) :
  fs catalog_path = inl e ->
  script fs = ([EvPrint (str_of_exception e)], inr tt) /\
  stdout (fst (script fs)) = [str_of_exception e] /\
  snd (script fs) = inr tt.
Proof.
  intros H. rewrite (script_read_error fs e H). repeat split.
Qed.

(** ** C5: a line that is not an Entry Marker prints nothing *)

(** C5.  A line whose trimmed content differs from the empty [msgstr]
    literal (a translated [msgstr] for one) triggers nothing: its iteration
    performs no event at all, and no location line with its number occurs
    in the output. *)
Theorem non_marker_silent (lines : list pystr) (i : nat) (line : pystr) :
  nth_error lines i = Some line ->
  strip line <> msgstr_empty ->
  scan_body lines (Z.of_nat i) line = ret tt /\
  (forall s,
     ~ In (lit "Line " ++ str_of_int (Z.of_nat i + 1) ++ lit ": " ++ s)
          (stdout (fst (scan lines)))).
Proof.
  intros Hn Hm. apply eqb_neq in Hm. split.
  - unfold scan_body. rewrite Hm. reflexivity.
  - intros s Hin. apply in_scan_stdout, location_in_report in Hin.
    destruct Hin as (l & Hl & Hr & _). rewrite Hn in Hl. injection Hl as <-.
    unfold reported, entry_marker in Hr. rewrite Hm in Hr. discriminate.
Qed.

(** ** C6: the output is the blocks of the reported markers, in file order *)


(** ** C7: the script is a function of the file and leaves it untouched *)

(** Opening a file for writing empties it: the file system can change. *)
Lemma open_for_writing_empties (fs : filesystem) (p : pystr) :
  fst (open_readlines fs p ModeW) p = inr [].
Proof. simpl. unfold fs_update. rewrite eqb_refl. reflexivity. Qed.


(** ** C8: the scan terminates in one bounded pass *)


(** ** C9: every subscript is inside the list *)

(** C9.  The scan never raises [IndexError] (it ends normally or with the
    [UnicodeEncodeError] of a [print]) and subscripts the list only at
    indices [k] with [0 <= k < len(lines)].  The header test subscripts
    (at [i-1]) only when [i > 0]; the backward walk entered at [j]
    subscripts only at indices between [0] and [j].  A marker on the first
    line is therefore not taken for a header: its iteration prints the
    location line and nothing else, without any subscript. *)
Theorem subscripts_in_bounds (lines : list pystr) :
  (exists t r,
     scan lines = (t, r) /\
     (r = inr tt \/
      exists s, r = inl (UnicodeEncodeError (error_text enc s))) /\
     Forall (fun k => 0 <= k < Z.of_nat (length lines)) (subscripts t)) /\
  (forall i,
     subscripts (fst (header_test lines i)) =
     if i >? 0 then [i - 1] else []) /\
  (forall j,
     Forall (fun k => 0 <= k <= j) (subscripts (fst (walk lines j)))) /\
  (forall line rest,
     scan_body (line :: rest) 0 line =
     if entry_marker line
     then ([EvPrint (location_line 0 line)], inr tt)
     else ret tt).
Proof.
  split; [|split; [|split]].
  - destruct (scan_performs lines) as (t & Hs & _ & Hb).
    exists t, (result_of tt (report lines)). split; [exact Hs|].
    split; [|exact Hb]. unfold result_of.
    destruct (first_rejected (report lines)) as [s|]; [right; exists s|left];
      reflexivity.
  - intros i. unfold header_test, getitem.
    destruct (i >? 0); [|reflexivity].
    destruct (py_index lines (i - 1)); reflexivity.
  - intros j. apply walk_bounded.
  - intros line rest. unfold scan_body. fold (entry_marker line).
    destruct (entry_marker line) eqn:Hm; [|reflexivity].
    unfold header_test. change (0 >? 0) with false. cbv iota. unfold ret.
    rewrite bind_inr. cbn [negb fst snd app].
    unfold print. rewrite (location_encodable 0 line Hm), bind_inr.
    change (0 - 1) with (-1).
    rewrite walk_eq. destruct (Z_ge_dec (-1) 0) as [H|_]; [lia|].
    reflexivity.
Qed.

(** ** C10: the shape of every printed line *)


(** * Further properties of the scan *)

(** X1.  The scan never looks ahead: what it prints for a file that
    continues a shorter one starts with all it prints for the shorter one,
    and, when the scan of the shorter one ends normally, goes on with what
    the remaining iterations print; when a [print] ends the scan of the
    shorter one, it ends the scan of the longer one at the same line. *)
Theorem scan_prefix_output (pre suf : list pystr) :
  stdout (fst (scan (pre ++ suf))) =
  stdout (fst (scan pre)) ++
  match snd (scan pre) with
  | inr _ =>
      stdout (fst (for_enumerate (scan_body (pre ++ suf))
                     (Z.of_nat (length pre)) suf))
  | inl _ => []
  end.
Proof.
  rewrite !scan_stdout, scan_result.
  destruct (for_enumerate_performs (pre ++ suf) pre suf eq_refl)
    as (t & Ht & Ho & _).
  rewrite Ht. cbn [fst]. rewrite Ho, report_app, take_while_encodable_app.
  unfold result_of.
  destruct (first_rejected (report pre)) as [u|] eqn:E.
  - rewrite app_nil_r. reflexivity.
  - apply first_rejected_none in E. rewrite (take_while_all _ _ E).
    reflexivity.
Qed.

(** X2.  The scan prints nothing exactly when no position is reported,
    that is when every Entry Marker of the file follows an empty [msgid];
    and on a file without any Entry Marker it performs no event at all. *)
Theorem silent_iff_nothing_reported (lines : list pystr) :
  (stdout (fst (scan lines)) = [] <->
   forall i line, nth_error lines i = Some line ->
                  reported lines i line = false) /\
  ((forall line, In line lines -> entry_marker line = false) ->
   scan lines = ret tt).
Proof.
  rewrite scan_stdout. split; [split|].
  - intros He i line Hn. destruct (reported lines i line) eqn:Hr;
      [|reflexivity].
    assert (Hin : In (location_line (Z.of_nat i) line) (report lines)).
    { apply in_report. exists i, line. split; [exact Hn|].
      unfold report_block. rewrite Hr. left. reflexivity. }
    destruct (report lines) as [|s r] eqn:E; [destruct Hin|].
    cbn [take_while] in He.
    rewrite (report_head_encodable lines s r E) in He. discriminate.
  - intros Hall. destruct (report lines) as [|s r] eqn:E; [reflexivity|].
    assert (Hin : In s (report lines)) by (rewrite E; left; reflexivity).
    apply in_report in Hin as (i & line & Hn & Hs).
    unfold report_block in Hs. rewrite (Hall i line Hn) in Hs. destruct Hs.
  - apply for_enumerate_no_marker.
Qed.

(** X3.  The printed lines that start with [Line ] are location lines of
    reported positions, in file order and once each, starting from the
    first reported position: there are never more of them than reported
    positions, and when the scan ends normally (no [print] raised) they are
    the location lines of all the reported positions. *)
Theorem location_lines_count (lines : list pystr) :
  (exists rest,
     map (fun p => lit "Line " ++ str_of_int (Z.of_nat (fst p) + 1) ++
                   lit ": " ++ strip (snd p))
         (filter (fun p => reported lines (fst p) (snd p))
                 (enumerate 0 lines)) =
     filter is_location (stdout (fst (scan lines))) ++ rest) /\
  (length (filter is_location (stdout (fst (scan lines)))) <=
   length (filter (fun p => reported lines (fst p) (snd p))
                  (enumerate 0 lines)))%nat /\
  (snd (scan lines) = inr tt ->
   filter is_location (stdout (fst (scan lines))) =
   map (fun p => lit "Line " ++ str_of_int (Z.of_nat (fst p) + 1) ++
                 lit ": " ++ strip (snd p))
       (filter (fun p => reported lines (fst p) (snd p))
               (enumerate 0 lines))).
Proof.
  pose proof (filter_location_report lines) as F.
  destruct (take_while_prefix (encodable enc) (report lines)) as (rest & E).
  rewrite <- scan_stdout in E.
  assert (P : map (fun p => location_line (Z.of_nat (fst p)) (snd p))
                  (filter (fun p => reported lines (fst p) (snd p))
                          (enumerate 0 lines)) =
              filter is_location (stdout (fst (scan lines))) ++
              filter is_location rest).
  { rewrite <- F, E at 1. apply filter_app. }
  split; [|split].
  - eexists. exact P.
  - rewrite <- (length_map (fun p => location_line (Z.of_nat (fst p)) (snd p))),
            P, length_app. lia.
  - intros Hn. rewrite scan_result in Hn. unfold result_of in Hn.
    destruct (first_rejected (report lines)) eqn:Ef; [discriminate|].
    apply first_rejected_none in Ef.
    rewrite scan_stdout, (take_while_all _ _ Ef). exact F.
Qed.

(** X4.  The context of a marker never reaches back to an earlier Entry
    Marker (reported or not): with a marker at [i] and a later position
    [j], the block printed at [j] has at most [j - i] lines, so all its
    context lines come from lines strictly between [i] and [j]. *)
Theorem context_stops_at_previous_marker
    (lines : list pystr) (i j : nat) (li lj : pystr) :
  (i < j)%nat ->
  nth_error lines i = Some li -> entry_marker li = true ->
  nth_error lines j = Some lj ->
  (length (context_of lines j) < j - i)%nat /\
  (length (stdout (fst (scan_body lines (Z.of_nat j) lj))) <= j - i)%nat /\
  (length (stdout (fst (walk lines (Z.of_nat j - 1)))) < j - i)%nat.
Proof.
  intros Hij Hi Hm Hj.
  assert (Hl : (j <= length lines)%nat).
  { apply Nat.lt_le_incl, nth_error_Some. congruence. }
  pose proof (context_below_marker lines i li (j - S i) Hi Hm) as Hc.
  replace (S i + (j - S i))%nat with j in Hc by lia.
  split; [lia|]. split.
  - rewrite (scan_body_stdout lines j lj Hl).
    pose proof (length_take_while (encodable enc) (report_block lines j lj)) as H.
    unfold report_block, block in *.
    destruct (reported lines j lj); simpl length in *;
      rewrite ?length_map in *; lia.
  - destruct (walk_performs lines j Hl) as (t & Ht & Ho & _).
    rewrite Ht. cbn [fst]. rewrite Ho.
    pose proof (length_take_while (encodable enc)
                  (map context_line (context_of lines j))) as H.
    rewrite length_map in H. lia.
Qed.

(** X5.  A line is an Entry Marker exactly when it is the empty [msgstr]
    literal with whitespace (possibly none) before and after it; likewise
    the line before a marker raises the Header Flag exactly when it is the
    empty [msgid] literal padded with whitespace. *)
Theorem marker_shape (line : pystr) :
  (strip line = msgstr_empty <->
   exists a b, all_space a = true /\ all_space b = true /\
               line = a ++ msgstr_empty ++ b) /\
  (strip line = msgid_empty <->
   exists a b, all_space a = true /\ all_space b = true /\
               line = a ++ msgid_empty ++ b).
Proof.
  assert (D : exists a b, all_space a = true /\ all_space b = true /\
                          line = a ++ strip line ++ b).
  { destruct (lstrip_decompose line) as (a & Ha & Ea).
    destruct (rstrip_decompose (lstrip line)) as (b & Hb & Eb).
    exists a, b. unfold strip. rewrite <- Eb, <- Ea. auto. }
  split; split.
  - intros E. rewrite <- E. exact D.
  - intros (a & b & Ha & Hb & ->). clear D.
    change msgstr_empty with (109%N :: tl msgstr_empty) at 1.
    rewrite (strip_padded a b 109%N _ Ha Hb eq_refl). reflexivity.
  - intros E. rewrite <- E. exact D.
  - intros (a & b & Ha & Hb & ->). clear D.
    change msgid_empty with (109%N :: tl msgid_empty) at 1.
    rewrite (strip_padded a b 109%N _ Ha Hb eq_refl). reflexivity.
Qed.

(** X6.  The output does not depend on trailing whitespace: two files whose
    lines agree once their trailing whitespace (line ending included, so
    [\n] against [\r\n] or a missing final newline) is removed give the
    same printed lines. *)
Theorem output_ignores_trailing_space (lines lines' : list pystr) :
  Forall2 same_up_to_trailing_space lines lines' ->
  stdout (fst (scan lines)) = stdout (fst (scan lines')).
Proof.
  intros H. rewrite !scan_stdout. f_equal. unfold report.
  apply (same_trailing_enumerate (report_block lines) (report_block lines')).
  eapply Forall2_impl; [|exact H].
  intros x y Rxy i. apply same_trailing_block; assumption.
Qed.

(** X7.  The header test trims the line above a marker, the context walk
    does not: a reported marker whose preceding line does not start with
    [msgid] at its very first character (an indented [msgid], a quoted
    continuation line, a blank line) is printed without any context line,
    and any line that begins with a whitespace character is such a line. *)
Theorem no_context_without_raw_prefix
    (lines : list pystr) (i : nat) (p line : pystr) :
  nth_error lines i = Some p ->
  nth_error lines (S i) = Some line ->
  reported lines (S i) line = true ->
  msgid_prefixed p = false ->
  stdout (fst (scan_body lines (Z.of_nat (S i)) line)) =
    [location_line (Z.of_nat (S i)) line] /\
  (forall c r, isspace c = true -> msgid_prefixed (c :: r) = false).
Proof.
  intros Hp Hn Hr Hm. split; [|exact indented_not_msgid].
  assert (Hl : (S i <= length lines)%nat).
  { apply Nat.lt_le_incl, nth_error_Some. congruence. }
  rewrite (scan_body_stdout lines (S i) line Hl).
  unfold report_block. rewrite Hr, (take_while_block lines (S i) line Hr),
    (context_of_S lines i p Hp), Hm.
  reflexivity.
Qed.

End Script.

(** * The statements at sample catalogs *)

(** The header followed by one untranslated entry: one block, with the
    entry's [msgid] as context. *)
Example sample_hello_output :
  stdout (fst (scan utf8_stdout sample_hello)) =
  [line_msgstr "5"; context_msgid "Hello"].
Proof. vm_compute. reflexivity. Qed.

(** The catalog with a Chinese [msgid], printed to a UTF-8 standard
    output and to an ASCII one. *)
Example sample_chinese_utf8 :
  stdout (fst (script utf8_stdout (fs_with sample_chinese))) =
  [line_msgstr "2";
   lit "  Context: msgid " ++ [dquote; 20320%N; 22909%N; dquote];
   line_msgstr "5"; context_msgid "Hello"].
Proof. vm_compute. reflexivity. Qed.

Example sample_chinese_ascii :
  stdout (fst (script ascii_stdout (fs_with sample_chinese))) =
  [line_msgstr "2";
   lit "'ascii' codec can't encode characters in position 18-19: ordinal not in range(128)"].
Proof. vm_compute. reflexivity. Qed.

(** ** C1 *)

Lemma marker_reported_iff_not_header_witness :
  nth_error sample_hello 4 = Some (msgstr_of EmptyString) /\
  strip (msgstr_of EmptyString) = msgstr_empty /\
  header_flag sample_hello 4 = false /\
  In (line_msgstr "5") (stdout (fst (scan utf8_stdout sample_hello))).
Proof.
  split; [reflexivity|]. split; [reflexivity|]. split; [reflexivity|].
  exact (proj2 (proj1 (marker_reported_iff_not_header utf8_stdout
                         sample_hello 4 (msgstr_of EmptyString)
                         eq_refl eq_refl))
           (conj eq_refl eq_refl)).
Defined.

(** On an ASCII standard output the context line of the first entry of
    [sample_chinese] cannot be printed: the scan ends there, and the marker
    on line 5, whose Header Flag is false, is not reported. *)
Lemma marker_unreported_after_raising_print :
  nth_error sample_chinese 4 = Some (msgstr_of EmptyString) /\
  strip (msgstr_of EmptyString) = msgstr_empty /\
  header_flag sample_chinese 4 = false /\
  stdout (fst (scan ascii_stdout sample_chinese)) = [line_msgstr "2"] /\
  ~ In (location_line 4 (msgstr_of EmptyString))
       (stdout (fst (scan ascii_stdout sample_chinese))).
Proof.
  repeat split. vm_compute. intros [H|[]]. discriminate H.
Qed.

(** ** C2 *)

Lemma context_walk_backward_witness :
  stdout (fst (scan_body utf8_stdout sample_two_msgid 3
                 (msgstr_of EmptyString))) =
  [line_msgstr "4"; context_msgid "second"; context_msgid "first"].
Proof.
  exact (proj1 (context_walk_backward utf8_stdout sample_two_msgid 3
                  (msgstr_of EmptyString) eq_refl eq_refl)).
Defined.

(** On an ASCII standard output the reported marker on line 2 of
    [sample_chinese] gets no context line, though the line above it starts
    with [msgid]. *)
Lemma context_line_lost_when_print_raises :
  reported sample_chinese 1 (msgstr_of EmptyString) = true /\
  option_map msgid_prefixed (nth_error sample_chinese 0) = Some true /\
  stdout (fst (scan_body ascii_stdout sample_chinese 1
                 (msgstr_of EmptyString))) =
  [line_msgstr "2"].
Proof. repeat split. Qed.

(** ** C3 *)

Lemma header_marker_suppressed_witness :
  stdout (fst (scan_body utf8_stdout sample_empty_msgid 4
                 (msgstr_of EmptyString))) = [] /\
  stdout (fst (scan utf8_stdout header_only)) = [].
Proof.
  pose proof (header_marker_suppressed utf8_stdout sample_empty_msgid 4
                (msgid_of EmptyString) (msgstr_of EmptyString)
                ltac:(repeat constructor) eq_refl eq_refl eq_refl eq_refl)
    as (H1 & _ & H3).
  exact (conj H1 H3).
Defined.

(** ** C4 *)

Lemma read_failure_printed_once_witness :
  stdout (fst (script utf8_stdout fs_missing)) =
  [lit "[Errno 2] No such file or directory"].
Proof.
  exact (proj1 (proj2 (read_failure_printed_once utf8_stdout fs_missing
                          (OSError (ascii_lit "[Errno 2] No such file or directory" eq_refl))
                          eq_refl))).
Defined.

(** ** C5 *)

Lemma non_marker_silent_witness :
  strip (msgstr_of "Bonjour") <> msgstr_empty /\
  scan_body utf8_stdout sample_bonjour 1 (msgstr_of "Bonjour") = ret tt /\
  stdout (fst (scan utf8_stdout sample_bonjour)) = [].
Proof.
  assert (Hm : strip (msgstr_of "Bonjour") <> msgstr_empty)
    by (vm_compute; discriminate).
  split; [exact Hm|]. split.
  - exact (proj1 (non_marker_silent utf8_stdout sample_bonjour 1
                    (msgstr_of "Bonjour") eq_refl Hm)).
  - reflexivity.
Defined.

(** ** C6 *)



(** ** C7 *)


(** ** C9 *)

Lemma subscripts_in_bounds_witness :
  scan_body utf8_stdout sample_two_reports 0 (msgstr_of EmptyString) =
  ([EvPrint (location_line 0 (msgstr_of EmptyString))], inr tt).
Proof.
  exact (proj2 (proj2 (proj2 (subscripts_in_bounds utf8_stdout
                                sample_two_reports)))
           (msgstr_of EmptyString)
           [msgid_of "Hello"; msgid_of "x"; msgstr_of EmptyString]).
Defined.

(** ** C10 *)



(** ** The further properties *)

Lemma silent_iff_nothing_reported_witness :
  scan utf8_stdout sample_bonjour = ret tt.
Proof.
  apply (proj2 (silent_iff_nothing_reported utf8_stdout sample_bonjour)).
  intros line [<-|[<-|[]]]; reflexivity.
Defined.

Lemma context_stops_at_previous_marker_witness :
  (length (stdout (fst (scan_body utf8_stdout sample_two_reports 3
                          (msgstr_of EmptyString)))) <= 3 - 0)%nat.
Proof.
  exact (proj1 (proj2 (context_stops_at_previous_marker utf8_stdout
                         sample_two_reports
                         0 3 (msgstr_of EmptyString) (msgstr_of EmptyString)
                         ltac:(repeat constructor) eq_refl eq_refl eq_refl))).
Defined.

Lemma output_ignores_trailing_space_witness :
  stdout (fst (scan utf8_stdout sample_hello)) =
  stdout (fst (scan utf8_stdout (map crlf sample_hello))).
Proof.
  apply (output_ignores_trailing_space utf8_stdout sample_hello
           (map crlf sample_hello)).
  repeat constructor.
Defined.

Lemma no_context_without_raw_prefix_witness :
  stdout (fst (scan_body utf8_stdout sample_indented 1
                 (msgstr_of EmptyString))) =
  [location_line 1 (msgstr_of EmptyString)].
Proof.
  exact (proj1 (no_context_without_raw_prefix utf8_stdout sample_indented 0
                  (32%N :: msgid_of "Hello") (msgstr_of EmptyString)
                  eq_refl eq_refl eq_refl eq_refl)).
Defined.
